(** * SelectImportSourceModal.vue

    A shallow embedding of the script and template of
    kolibri/plugins/device/assets/src/views/ManageContentPage/
    SelectTransferSourceModal/SelectImportSourceModal.vue, together with the
    part of the JavaScript run time the component relies on: property access
    and truthiness of values, [setTimeout], one promise with its [then]
    reactions, and the event loop that serialises every callback. *)

From Stdlib Require Import String List Bool Arith ZArith Lia.
Import ListNotations.
Open Scope string_scope.
Open Scope list_scope.

(** ** JavaScript values *)

Module JS.

(** The values that can reach the component: the [manageMode] attribute and
    the body of the status response.  Numbers are integers here; NaN and
    fractions never matter to the component. *)
#[warnings="-register-all"]
Inductive value : Type :=
| Undefined
| Null
| Boolean (b : bool)
| Number (n : Z)
| Str (s : string)
| Object (props : list (string * value)).

(** ToBoolean, as in [if (this.$attrs.manageMode)]. *)
Definition to_boolean (v : value) : bool :=
  match v with
  | Undefined | Null => false
  | Boolean b => b
  | Number n => negb (Z.eqb n 0)
  | Str s => negb (String.eqb s "")
  | Object _ => true
  end.

(** [v === 'literal']: only a string is strictly equal to a string. *)
Definition strict_eq_string (v : value) (literal : string) : bool :=
  match v with
  | Str s => String.eqb s literal
  | _ => false
  end.

Fixpoint lookup (key : string) (props : list (string * value)) : value :=
  match props with
  | [] => Undefined
  | (k, v) :: rest => if String.eqb k key then v else lookup key rest
  end.

(** [v.key] and the destructuring [({ key }) => ...]: a TypeError ([None])
    on [undefined] and [null], [undefined] for a property that is absent
    (none of the names read here exists on a primitive). *)
Definition get (v : value) (key : string) : option value :=
  match v with
  | Undefined | Null => None
  | Object props => Some (lookup key props)
  | Boolean _ | Number _ | Str _ => Some Undefined
  end.

End JS.

(** ** Data model *)

(** Modelled from the spec: the module [../../../constants] that declares
    [ContentSources] is outside the sources at hand; the three members the
    component names are taken as the three values of an enumeration. *)
Inductive ContentSources : Type :=
| KOLIBRI_STUDIO
| PEER_KOLIBRI_SERVER
| LOCAL_DRIVE.

(** The reactive fields returned by [data()]. *)
Record component : Type := mkComponent {
  source : ContentSources;
  initialDelay : bool;
  formIsDisabled : bool;
  kolibriStudioIsOffline : bool
}.

(** [this.$attrs]: the only attribute read is [manageMode]. *)
Record attributes : Type := mkAttrs {
  manageMode : JS.value
}.

(** The object literal [{ source: this.source }]. *)
Record submission : Type := mkSubmission {
  submitted_source : ContentSources
}.

(** What the component does to the outside world. *)
Inductive effect : Type :=
| emit (name : string) (payload : option submission)
| goForwardFromSelectImportSourceModal (src : ContentSources)
| resetContentWizardState
| getKolibriStudioStatus.

(** ** Methods: code that runs with [this] bound *)

Inductive completion (A : Type) : Type :=
| Normal (a : A)
| TypeError.
Arguments Normal {A} a.
Arguments TypeError {A}.

(** A method reads [$attrs], reads and assigns the fields of [this], and
    performs outward effects; it may end in an exception, in which case the
    assignments and effects made so far stay. *)
Definition method (A : Type) : Type :=
  attributes -> component -> completion A * component * list effect.

Definition ret {A} (a : A) : method A :=
  fun _ this => (Normal a, this, []).

Definition bind {A B} (m : method A) (k : A -> method B) : method B :=
  fun attrs this =>
    match m attrs this with
    | (Normal a, this1, out1) =>
        match k a attrs this1 with
        | (r, this2, out2) => (r, this2, out1 ++ out2)
        end
    | (TypeError, this1, out1) => (TypeError, this1, out1)
    end.

Declare Scope method_scope.
Delimit Scope method_scope with method.
Notation "x <- m ;; k" := (bind m (fun x => k))
  (at level 61, m at next level, right associativity) : method_scope.
Notation "m ;; k" := (bind m (fun _ => k))
  (at level 61, right associativity) : method_scope.
Open Scope method_scope.

Definition read {A} (field : component -> A) : method A :=
  fun _ this => (Normal (field this), this, []).

Definition attr {A} (field : attributes -> A) : method A :=
  fun attrs this => (Normal (field attrs), this, []).

Definition assign (update : component -> component) : method unit :=
  fun _ this => (Normal tt, update this, []).

Definition perform (e : effect) : method unit :=
  fun _ this => (Normal tt, this, [e]).

Definition property (v : JS.value) (key : string) : method JS.value :=
  fun _ this =>
    match JS.get v key with
    | Some x => (Normal x, this, [])
    | None => (TypeError, this, [])
    end.

Definition set_source (v : ContentSources) (this : component) : component :=
  mkComponent v (initialDelay this) (formIsDisabled this)
              (kolibriStudioIsOffline this).

Definition set_initialDelay (v : bool) (this : component) : component :=
  mkComponent (source this) v (formIsDisabled this)
              (kolibriStudioIsOffline this).

Definition set_formIsDisabled (v : bool) (this : component) : component :=
  mkComponent (source this) (initialDelay this) v
              (kolibriStudioIsOffline this).

Definition set_kolibriStudioIsOffline (v : bool) (this : component)
  : component :=
  mkComponent (source this) (initialDelay this) (formIsDisabled this) v.

(** ** The component *)

(** [data()] *)
Definition data : component :=
  {| source := KOLIBRI_STUDIO;
     initialDelay := true;
     formIsDisabled := true;
     kolibriStudioIsOffline := false |}.

(** The arrow function handed to [setTimeout]. *)
Definition initialDelayElapsed : method unit :=
  assign (set_initialDelay false).

(** The arrow function handed to [then]: [({ data }) => { ... }]. *)
Definition studioStatusReceived (response : JS.value) : method unit :=
  body <- property response "data" ;;
  status <- property body "status" ;;
  (if JS.strict_eq_string status "offline" then
     assign (set_source PEER_KOLIBRI_SERVER) ;;
     assign (set_kolibriStudioIsOffline true)
   else ret tt) ;;
  assign (set_formIsDisabled false).

Definition handleSubmit : method unit :=
  disabled <- read formIsDisabled ;;
  if negb disabled then
    mode <- attr manageMode ;;
    if JS.to_boolean mode then
      src <- read source ;;
      perform (emit "submit" (Some {| submitted_source := src |}))
    else
      src <- read source ;;
      perform (goForwardFromSelectImportSourceModal src)
  else ret tt.

Definition handleCancel : method unit :=
  mode <- attr manageMode ;;
  if JS.to_boolean mode then
    perform (emit "cancel" None)
  else
    perform resetContentWizardState.

(** ** The template *)

(** The props the template binds on each [KRadioButton]. *)
Record KRadioButton : Type := mkRadio {
  value : ContentSources;
  disabled : bool;
  autofocus : bool
}.

(** The props bound on [SelectSourceModal] and its slot content. *)
Record SelectSourceModal : Type := mkModal {
  submitDisabled : bool;
  showLoadingMessage : bool;
  buttons : list KRadioButton
}.

Definition render (this : component) : SelectSourceModal :=
  {| submitDisabled := formIsDisabled this;
     showLoadingMessage := formIsDisabled this && negb (initialDelay this);
     buttons :=
       [ {| value := KOLIBRI_STUDIO;
            disabled := kolibriStudioIsOffline this || formIsDisabled this;
            autofocus := negb (kolibriStudioIsOffline this) |};
         {| value := PEER_KOLIBRI_SERVER;
            disabled := formIsDisabled this;
            autofocus := false |};
         {| value := LOCAL_DRIVE;
            disabled := formIsDisabled this;
            autofocus := false |} ] |}.

Definition ContentSources_eqb (a b : ContentSources) : bool :=
  match a, b with
  | KOLIBRI_STUDIO, KOLIBRI_STUDIO
  | PEER_KOLIBRI_SERVER, PEER_KOLIBRI_SERVER
  | LOCAL_DRIVE, LOCAL_DRIVE => true
  | _, _ => false
  end.

(** ** The event loop *)

(** The promise returned by [RemoteChannelResource.getKolibriStudioStatus()].
    Only [onFulfilled] reactions are kept: the component never passes an
    [onRejected] handler and never calls [catch]. *)
Inductive promise : Type :=
| Pending (reactions : list (JS.value -> method unit))
| Fulfilled (response : JS.value)
| Rejected.

(** One mounted component and the run time around it.  [clock] counts the
    milliseconds since the component was created; [timers] holds the pending
    [setTimeout] callbacks with the instant at which each is due; [outbox]
    is the sequence of outward effects so far. *)
Record world : Type := mkWorld {
  vm : component;
  vm_attrs : attributes;
  clock : nat;
  timers : list (nat * method unit);
  studioStatus : promise;
  outbox : list effect
}.

Definition with_vm (this : component) (w : world) : world :=
  mkWorld this (vm_attrs w) (clock w) (timers w) (studioStatus w) (outbox w).

Definition with_timers (clk : nat) (ts : list (nat * method unit))
  (w : world) : world :=
  mkWorld (vm w) (vm_attrs w) clk ts (studioStatus w) (outbox w).

Definition with_studioStatus (p : promise) (w : world) : world :=
  mkWorld (vm w) (vm_attrs w) (clock w) (timers w) p (outbox w).

Definition with_outbox (out : list effect) (w : world) : world :=
  mkWorld (vm w) (vm_attrs w) (clock w) (timers w) (studioStatus w) out.

(** Run one callback or handler to completion.  An exception that escapes
    it is reported by the run time and otherwise lost; what the callback
    assigned and performed before throwing stays. *)
Definition call (m : method unit) (w : world) : world :=
  match m (vm_attrs w) (vm w) with
  | (_, this', out) => with_outbox (outbox w ++ out) (with_vm this' w)
  end.

Definition setTimeout (callback : method unit) (delay : nat) (w : world)
  : world :=
  with_timers (clock w) (timers w ++ [(clock w + delay, callback)]) w.

(** The request leaves for the server and a fresh pending promise stands
    for its answer. *)
Definition RemoteChannelResource_getKolibriStudioStatus (w : world) : world :=
  with_studioStatus (Pending [])
    (with_outbox (outbox w ++ [getKolibriStudioStatus]) w).

(** [promise.then(onFulfilled)] *)
Definition then_ (onFulfilled : JS.value -> method unit) (w : world)
  : world :=
  match studioStatus w with
  | Pending reactions =>
      with_studioStatus (Pending (reactions ++ [onFulfilled])) w
  | Fulfilled response => call (onFulfilled response) w
  | Rejected => w
  end.

(** [created()] *)
Definition created (w : world) : world :=
  let w := setTimeout initialDelayElapsed 1000 w in
  let w := RemoteChannelResource_getKolibriStudioStatus w in
  then_ studioStatusReceived w.

(** A new instance: [data()] is evaluated, then the [created] hook runs. *)
Definition instantiate (attrs : attributes) : world :=
  created (mkWorld data attrs 0 [] (Pending []) []).

(** What can happen to a mounted instance. *)
Inductive event : Type :=
| elapse (dt : nat)
| studioStatusResolved (response : JS.value)
| studioStatusRejected
| pick (choice : ContentSources)
| submit
| cancel.

Definition is_due (t : nat) (entry : nat * method unit) : bool :=
  Nat.leb (fst entry) t.

(** Time passes: every timer that has come due fires, each once. *)
Definition advance (dt : nat) (w : world) : world :=
  let t := clock w + dt in
  let ready := filter (is_due t) (timers w) in
  let waiting := filter (fun entry => negb (is_due t entry)) (timers w) in
  fold_left (fun w entry => call (snd entry) w) ready
            (with_timers t waiting w).

(** A promise settles once; later settlements are ignored. *)
Definition resolve (response : JS.value) (w : world) : world :=
  match studioStatus w with
  | Pending reactions =>
      fold_left (fun w reaction => call (reaction response) w) reactions
                (with_studioStatus (Fulfilled response) w)
  | _ => w
  end.

Definition reject (w : world) : world :=
  match studioStatus w with
  | Pending _ => with_studioStatus Rejected w
  | _ => w
  end.

(** Modelled from the spec: [KRadioButton] is outside the sources at hand.
    Through [v-model="source"] picking a button assigns its [value] to
    [source]; a button whose [disabled] prop is true cannot be picked. *)
Definition choose (choice : ContentSources) (w : world) : world :=
  if existsb (fun b => ContentSources_eqb (value b) choice
                       && negb (disabled b))
             (buttons (render (vm w)))
  then with_vm (set_source choice (vm w)) w
  else w.

Definition step (w : world) (e : event) : world :=
  match e with
  | elapse dt => advance dt w
  | studioStatusResolved response => resolve response w
  | studioStatusRejected => reject w
  | pick choice => choose choice w
  | submit => call handleSubmit w
  | cancel => call handleCancel w
  end.

Definition run (events : list event) (w : world) : world :=
  fold_left step events w.

(** The worlds an instance goes through, the initial one first. *)
Fixpoint history (events : list event) (w : world) : list world :=
  w :: match events with
       | [] => []
       | e :: rest => history rest (step w e)
       end.

(** How often a flag goes from true to false, and from false to true,
    along a sequence of observations. *)
Fixpoint falls (obs : list bool) : nat :=
  match obs with
  | a :: (b :: _) as rest => (if a && negb b then 1 else 0) + falls rest
  | _ => 0
  end.

Fixpoint rises (obs : list bool) : nat :=
  match obs with
  | a :: (b :: _) as rest => (if negb a && b then 1 else 0) + rises rest
  | _ => 0
  end.

Definition observe (flag : component -> bool) (events : list event)
  (w : world) : list bool :=
  map (fun w => flag (vm w)) (history events w).

(** ** Reading a sequence of events *)

(** The milliseconds that have passed during a sequence of events. *)
Fixpoint elapsed (events : list event) : nat :=
  match events with
  | [] => 0
  | elapse dt :: rest => dt + elapsed rest
  | _ :: rest => elapsed rest
  end.

Inductive settlement : Type :=
| fulfilled (response : JS.value)
| rejected.

(** How the status promise settles during a sequence of events: the first
    settlement counts, [None] while the answer is still awaited. *)
Fixpoint settlement_of (events : list event) : option settlement :=
  match events with
  | [] => None
  | studioStatusResolved response :: _ => Some (fulfilled response)
  | studioStatusRejected :: _ => Some rejected
  | _ :: rest => settlement_of rest
  end.

(** [response.data.status], when both property reads go through. *)
Definition status_of (response : JS.value) : option JS.value :=
  match JS.get response "data" with
  | Some body => JS.get body "status"
  | None => None
  end.

Definition carries_status (response : JS.value) : bool :=
  match status_of response with
  | Some _ => true
  | None => false
  end.

(** The status check resolves, with a response that carries a status. *)
Definition unlocks (events : list event) : bool :=
  match settlement_of events with
  | Some (fulfilled response) => carries_status response
  | _ => false
  end.

Definition is_request (e : effect) : bool :=
  match e with
  | getKolibriStudioStatus => true
  | _ => false
  end.

(** Effects that confirm a selection: the "submit" event and the wizard
    action. *)
Definition is_submission (e : effect) : bool :=
  match e with
  | emit name _ => String.eqb name "submit"
  | goForwardFromSelectImportSourceModal _ => true
  | _ => false
  end.

(** ** Invariants of a running instance *)

(** The delay axis: the timer is either still queued, or it has fired. *)
Definition delay_state (w : world) : Prop :=
  (timers w = [(1000, initialDelayElapsed)]
   /\ clock w < 1000 /\ initialDelay (vm w) = true)
  \/ (timers w = [] /\ 1000 <= clock w /\ initialDelay (vm w) = false).

(** The readiness axis, by the state of the promise. *)
Definition readiness_state (w : world) : Prop :=
  match studioStatus w with
  | Pending reactions =>
      reactions = [studioStatusReceived]
      /\ formIsDisabled (vm w) = true
      /\ kolibriStudioIsOffline (vm w) = false
  | Fulfilled response =>
      formIsDisabled (vm w) = negb (carries_status response)
  | Rejected =>
      formIsDisabled (vm w) = true
  end.

Definition consistent (w : world) : Prop :=
  delay_state w /\ readiness_state w.

(** The state the promise is in after a sequence of events that starts
    while it is pending. *)
Definition promise_after (events : list event) : promise :=
  match settlement_of events with
  | None => Pending [studioStatusReceived]
  | Some (fulfilled response) => Fulfilled response
  | Some rejected => Rejected
  end.

(** ** Reading the template and the outbox *)

(** The button of the template that carries [choice] can be picked. *)
Definition enabled (choice : ContentSources) (this : component) : bool :=
  existsb (fun b => ContentSources_eqb (value b) choice
                    && negb (disabled b))
          (buttons (render this)).

(** The status check resolves and reports Kolibri Studio offline. *)
Definition reports_offline (events : list event) : bool :=
  match settlement_of events with
  | Some (fulfilled response) =>
      match status_of response with
      | Some status => JS.strict_eq_string status "offline"
      | None => false
      end
  | _ => false
  end.

(** What the promise says about Kolibri Studio, once settled. *)
Definition offline_by (p : promise) : bool :=
  match p with
  | Fulfilled response =>
      match status_of response with
      | Some status => JS.strict_eq_string status "offline"
      | None => false
      end
  | _ => false
  end.

(** The source a submission effect carries. *)
Definition submitted (e : effect) : option ContentSources :=
  match e with
  | emit name (Some payload) =>
      if String.eqb name "submit" then Some (submitted_source payload)
      else None
  | goForwardFromSelectImportSourceModal src => Some src
  | _ => None
  end.

(** Effects that dismiss the modal: the "cancel" event and the wizard
    reset. *)
Definition is_cancellation (e : effect) : bool :=
  match e with
  | emit name _ => String.eqb name "cancel"
  | resetContentWizardState => true
  | _ => false
  end.

(** An effect goes to the collaborator the mode selects: events to the
    embedding component in manage mode, store calls to the wizard
    otherwise; the status request is made in both modes. *)
Definition addressed_by_mode (mode : bool) (e : effect) : bool :=
  match e with
  | emit _ _ => mode
  | goForwardFromSelectImportSourceModal _ | resetContentWizardState =>
      negb mode
  | getKolibriStudioStatus => true
  end.

Definition is_submit (e : event) : bool :=
  match e with
  | submit => true
  | _ => false
  end.

Definition is_cancel (e : event) : bool :=
  match e with
  | cancel => true
  | _ => false
  end.

(** The [submit] events of a run that come after the status check has
    unlocked the form. *)
Fixpoint submits_after_unlock (events : list event) : nat :=
  match events with
  | [] => 0
  | studioStatusResolved response :: rest =>
      if carries_status response then length (filter is_submit rest) else 0
  | studioStatusRejected :: _ => 0
  | _ :: rest => submits_after_unlock rest
  end.

(** The selection invariants: with Kolibri Studio offline the selection is
    not Kolibri Studio, the offline flag is what the promise says, and a
    locked form still holds the initial selection. *)
Definition selection_state (w : world) : Prop :=
  kolibriStudioIsOffline (vm w)
    && ContentSources_eqb (source (vm w)) KOLIBRI_STUDIO = false
  /\ kolibriStudioIsOffline (vm w) = offline_by (studioStatus w)
  /\ (formIsDisabled (vm w) = true -> source (vm w) = KOLIBRI_STUDIO).

(** ** Sample inputs *)

(** The two bodies the status endpoint answers with. *)
Definition online_response : JS.value :=
  JS.Object [("data", JS.Object [("status", JS.Str "online")])].

Definition offline_response : JS.value :=
  JS.Object [("data", JS.Object [("status", JS.Str "offline")])].

(** The modal embedded in the manage page, and the modal as a step of the
    import wizard, where the attribute is not passed. *)
Definition manage_attrs : attributes := {| manageMode := JS.Boolean true |}.
Definition wizard_attrs : attributes := {| manageMode := JS.Undefined |}.

(** * Properties *)

(** ** Handlers and callbacks, run on an arbitrary component *)

Section Handlers.

Variable attrs : attributes.
Variable this : component.

Lemma handleSubmit_spec :
  handleSubmit attrs this =
    (Normal tt, this,
     if formIsDisabled this then []
     else if JS.to_boolean (manageMode attrs)
          then [emit "submit" (Some {| submitted_source := source this |})]
          else [goForwardFromSelectImportSourceModal (source this)]).
Proof.
  unfold handleSubmit, bind, read, attr, perform, ret.
  destruct (formIsDisabled this); simpl; [reflexivity|].
  destruct (JS.to_boolean (manageMode attrs)); reflexivity.
Qed.

Lemma handleCancel_spec :
  handleCancel attrs this =
    (Normal tt, this,
     if JS.to_boolean (manageMode attrs)
     then [emit "cancel" None]
     else [resetContentWizardState]).
Proof.
  unfold handleCancel, bind, attr, perform.
  destruct (JS.to_boolean (manageMode attrs)); reflexivity.
Qed.

(** C2: with the form enabled, [handleSubmit] returns normally, leaves the
    component as it was and performs exactly one effect: the event
    "submit" carrying [{ source: this.source }] when [manageMode] holds,
    and otherwise the wizard action [goForwardFromSelectImportSourceModal]
    applied to [this.source]. *)
Theorem handleSubmit_enabled :
  formIsDisabled this = false ->
  handleSubmit attrs this =
    (Normal tt, this,
     if JS.to_boolean (manageMode attrs)
     then [emit "submit" (Some {| submitted_source := source this |})]
     else [goForwardFromSelectImportSourceModal (source this)]).
Proof.
  intros enabled. rewrite handleSubmit_spec, enabled. reflexivity.
Qed.

(** C3: with the form disabled, [handleSubmit] performs no effect at all,
    neither an event nor a call of the wizard action, whatever
    [manageMode] and [source] are. *)
Theorem handleSubmit_disabled :
  formIsDisabled this = true ->
  handleSubmit attrs this = (Normal tt, this, []).
Proof.
  intros locked. rewrite handleSubmit_spec, locked. reflexivity.
Qed.

(** C4: [handleCancel] performs exactly one effect in every state, without
    looking at [formIsDisabled]: the event "cancel" without payload when
    [manageMode] holds, the mutation [resetContentWizardState] (no
    argument) otherwise. *)
Theorem handleCancel_one_effect :
  handleCancel attrs this =
    (Normal tt, this,
     if JS.to_boolean (manageMode attrs)
     then [emit "cancel" None]
     else [resetContentWizardState]).
Proof. exact handleCancel_spec. Qed.

Lemma initialDelayElapsed_spec :
  initialDelayElapsed attrs this =
    (Normal tt, set_initialDelay false this, []).
Proof. reflexivity. Qed.

(** The status callback on a response that carries a status. *)
Lemma studioStatusReceived_spec response status :
  status_of response = Some status ->
  studioStatusReceived response attrs this =
    (Normal tt,
     if JS.strict_eq_string status "offline"
     then mkComponent PEER_KOLIBRI_SERVER (initialDelay this) false true
     else set_formIsDisabled false this,
     []).
Proof.
  unfold status_of, studioStatusReceived, bind, property, assign, ret.
  destruct (JS.get response "data") as [body|]; [|discriminate].
  intros ->.
  destruct (JS.strict_eq_string status "offline"); reflexivity.
Qed.

(** The status callback on a response without [data], or whose [data] is
    [null] or [undefined]: a TypeError before anything is assigned. *)
Lemma studioStatusReceived_throws response :
  status_of response = None ->
  studioStatusReceived response attrs this = (TypeError, this, []).
Proof.
  unfold status_of, studioStatusReceived, bind, property, assign, ret.
  destruct (JS.get response "data") as [body|]; [|reflexivity].
  intros ->. reflexivity.
Qed.

Lemma studioStatusReceived_outcome response :
  snd (studioStatusReceived response attrs this) = []
  /\ initialDelay (snd (fst (studioStatusReceived response attrs this)))
     = initialDelay this
  /\ formIsDisabled (snd (fst (studioStatusReceived response attrs this)))
     = formIsDisabled this && negb (carries_status response).
Proof.
  unfold carries_status.
  destruct (status_of response) as [status|] eqn:E.
  - rewrite (studioStatusReceived_spec _ _ E). simpl.
    destruct (JS.strict_eq_string status "offline"); simpl;
      rewrite andb_false_r; auto.
  - rewrite (studioStatusReceived_throws _ E). simpl.
    rewrite andb_true_r. auto.
Qed.

End Handlers.

(** ** The run time: what a call leaves alone *)

#[local] Arguments Nat.leb : simpl never.
#[local] Arguments Nat.ltb : simpl never.
#[local] Arguments Nat.add : simpl never.

Lemma call_frame m w :
  vm_attrs (call m w) = vm_attrs w
  /\ clock (call m w) = clock w
  /\ timers (call m w) = timers w
  /\ studioStatus (call m w) = studioStatus w.
Proof.
  unfold call. destruct (m (vm_attrs w) (vm w)) as [[r this'] out].
  simpl. auto.
Qed.

Lemma call_clock m w : clock (call m w) = clock w.
Proof. apply call_frame. Qed.

Lemma call_timers m w : timers (call m w) = timers w.
Proof. apply call_frame. Qed.

Lemma call_status m w : studioStatus (call m w) = studioStatus w.
Proof. apply call_frame. Qed.

Lemma call_vm m w : vm (call m w) = snd (fst (m (vm_attrs w) (vm w))).
Proof.
  unfold call. destruct (m (vm_attrs w) (vm w)) as [[r this'] out].
  reflexivity.
Qed.

Lemma call_outbox m w :
  outbox (call m w) = outbox w ++ snd (m (vm_attrs w) (vm w)).
Proof.
  unfold call. destruct (m (vm_attrs w) (vm w)) as [[r this'] out].
  reflexivity.
Qed.

Lemma call_silent m w :
  m (vm_attrs w) (vm w) = (Normal tt, vm w, []) -> call m w = w.
Proof.
  unfold call. intros ->. destruct w. unfold with_outbox, with_vm. simpl.
  rewrite app_nil_r. reflexivity.
Qed.

Lemma run_app before after w :
  run (before ++ after) w = run after (run before w).
Proof. apply fold_left_app. Qed.

Lemma run_cons e rest w : run (e :: rest) w = run rest (step w e).
Proof. reflexivity. Qed.

Lemma elapsed_app before after :
  elapsed (before ++ after) = elapsed before + elapsed after.
Proof.
  induction before as [|e before IH]; simpl; [reflexivity|].
  destruct e; simpl; rewrite IH; lia.
Qed.

(** ** Each kind of step, on a consistent world *)

Lemma consistent_instantiate attrs : consistent (instantiate attrs).
Proof.
  split.
  - left. repeat split. simpl. lia.
  - simpl. repeat split.
Qed.

(** Time passing, before and after the timer fires. *)
Lemma advance_spec dt w :
  delay_state w ->
  advance dt w =
    if Nat.ltb (clock w) 1000 && Nat.leb 1000 (clock w + dt)
    then with_vm (set_initialDelay false (vm w))
                 (with_timers (clock w + dt) [] w)
    else with_timers (clock w + dt) (timers w) w.
Proof.
  intros [(Ht & Hc & Hd) | (Ht & Hc & Hd)]; unfold advance; rewrite Ht.
  - apply Nat.ltb_lt in Hc. rewrite Hc. simpl. unfold is_due. simpl.
    destruct (Nat.leb 1000 (clock w + dt)); simpl; [|reflexivity].
    unfold call, initialDelayElapsed, assign, with_outbox, with_vm,
      with_timers. simpl. rewrite app_nil_r. reflexivity.
  - simpl. apply Nat.ltb_ge in Hc. rewrite Hc. reflexivity.
Qed.

Lemma resolve_spec response w :
  readiness_state w ->
  resolve response w =
    match studioStatus w with
    | Pending _ =>
        call (studioStatusReceived response)
             (with_studioStatus (Fulfilled response) w)
    | _ => w
    end.
Proof.
  unfold readiness_state, resolve.
  destruct (studioStatus w) as [reactions| |]; try reflexivity.
  intros [-> _]. reflexivity.
Qed.

(** While the check is pending every button is disabled. *)
Lemma choose_pending choice w reactions :
  readiness_state w -> studioStatus w = Pending reactions ->
  choose choice w = w.
Proof.
  unfold readiness_state. intros H E. rewrite E in H.
  destruct H as (_ & H & _).
  unfold choose. simpl. rewrite H, orb_true_r. simpl.
  rewrite !andb_false_r. reflexivity.
Qed.

Lemma choose_frame choice w :
  initialDelay (vm (choose choice w)) = initialDelay (vm w)
  /\ formIsDisabled (vm (choose choice w)) = formIsDisabled (vm w)
  /\ kolibriStudioIsOffline (vm (choose choice w))
     = kolibriStudioIsOffline (vm w)
  /\ vm_attrs (choose choice w) = vm_attrs w
  /\ clock (choose choice w) = clock w
  /\ timers (choose choice w) = timers w
  /\ studioStatus (choose choice w) = studioStatus w
  /\ outbox (choose choice w) = outbox w.
Proof.
  unfold choose.
  destruct (existsb _ _); simpl; repeat split; reflexivity.
Qed.

Lemma step_submit w :
  step w submit =
    with_outbox (outbox w ++ snd (handleSubmit (vm_attrs w) (vm w))) w.
Proof.
  simpl. unfold call. rewrite handleSubmit_spec. simpl.
  destruct w; reflexivity.
Qed.

Lemma step_cancel w :
  step w cancel =
    with_outbox (outbox w ++ snd (handleCancel (vm_attrs w) (vm w))) w.
Proof.
  simpl. unfold call. rewrite handleCancel_spec. simpl.
  destruct w; reflexivity.
Qed.

Lemma step_clock w e :
  consistent w -> clock (step w e) = clock w + elapsed [e].
Proof.
  intros [Hd Hr]. destruct e; simpl; rewrite ?Nat.add_0_r.
  - rewrite (advance_spec _ _ Hd).
    destruct (_ && _); reflexivity.
  - rewrite (resolve_spec _ _ Hr).
    destruct (studioStatus w); [|reflexivity..].
    rewrite call_clock. reflexivity.
  - unfold reject. destruct (studioStatus w); reflexivity.
  - apply choose_frame.
  - apply call_clock.
  - apply call_clock.
Qed.

Lemma step_status w e :
  consistent w ->
  studioStatus (step w e) =
    match studioStatus w, e with
    | Pending _, studioStatusResolved response => Fulfilled response
    | Pending _, studioStatusRejected => Rejected
    | p, _ => p
    end.
Proof.
  intros [Hd Hr]. destruct e; simpl.
  - rewrite (advance_spec _ _ Hd).
    destruct (_ && _); simpl; destruct (studioStatus w); reflexivity.
  - rewrite (resolve_spec _ _ Hr).
    destruct (studioStatus w) eqn:E; try exact E.
    rewrite call_status. reflexivity.
  - unfold reject. destruct (studioStatus w) eqn:E; simpl; congruence.
  - destruct (choose_frame choice w) as (_ & _ & _ & _ & _ & _ & -> & _).
    destruct (studioStatus w); reflexivity.
  - rewrite call_status. destruct (studioStatus w); reflexivity.
  - rewrite call_status. destruct (studioStatus w); reflexivity.
Qed.

Lemma consistent_step w e : consistent w -> consistent (step w e).
Proof.
  intros [Hd Hr]. destruct e; simpl.
  - (* elapse *)
    rewrite (advance_spec _ _ Hd).
    destruct (Nat.ltb (clock w) 1000) eqn:Hlt;
      destruct (Nat.leb 1000 (clock w + dt)) eqn:Hle; simpl;
      (split;
       [ unfold delay_state in *; simpl;
         apply Nat.ltb_lt in Hlt || apply Nat.ltb_ge in Hlt;
         apply Nat.leb_le in Hle || apply Nat.leb_gt in Hle;
         destruct Hd as [(Ht & Hc & Hi) | (Ht & Hc & Hi)];
         try lia; auto
       | unfold readiness_state in *; simpl;
         destruct (studioStatus w); auto ]).
  - (* the check resolves *)
    rewrite (resolve_spec _ _ Hr).
    destruct (studioStatus w) eqn:E; try (split; [exact Hd|];
      unfold readiness_state; rewrite E; unfold readiness_state in Hr;
      rewrite E in Hr; exact Hr).
    set (w1 := with_studioStatus (Fulfilled response) w).
    destruct (call_frame (studioStatusReceived response) w1)
      as (_ & Hc & Ht & Hs).
    destruct (studioStatusReceived_outcome (vm_attrs w1) (vm w1) response)
      as (_ & Hi & Hf).
    split.
    + unfold delay_state. rewrite Hc, Ht, call_vm, Hi. exact Hd.
    + unfold readiness_state. rewrite Hs, call_vm, Hf. simpl.
      unfold readiness_state in Hr. rewrite E in Hr.
      destruct Hr as (_ & -> & _). reflexivity.
  - (* the check fails *)
    unfold reject. unfold readiness_state in Hr.
    destruct (studioStatus w) eqn:E; try (split; [exact Hd|];
      unfold readiness_state; rewrite E; exact Hr).
    split; [exact Hd|]. unfold readiness_state. simpl.
    apply Hr.
  - (* a button is picked *)
    destruct (studioStatus w) eqn:E.
    + destruct (choose_frame choice w)
        as (Hi & Hf & Ho & _ & Hc & Ht & Hs & _).
      split.
      * unfold delay_state. rewrite Hc, Ht, Hi. exact Hd.
      * unfold readiness_state in *. rewrite Hs, E, Hf, Ho. rewrite E in Hr.
        exact Hr.
    + destruct (choose_frame choice w)
        as (Hi & Hf & _ & _ & Hc & Ht & Hs & _).
      split.
      * unfold delay_state. rewrite Hc, Ht, Hi. exact Hd.
      * unfold readiness_state in *. rewrite Hs, E, Hf. rewrite E in Hr.
        exact Hr.
    + destruct (choose_frame choice w)
        as (Hi & Hf & _ & _ & Hc & Ht & Hs & _).
      split.
      * unfold delay_state. rewrite Hc, Ht, Hi. exact Hd.
      * unfold readiness_state in *. rewrite Hs, E, Hf. rewrite E in Hr.
        exact Hr.
  - fold (step w submit). rewrite step_submit. split; assumption.
  - fold (step w cancel). rewrite step_cancel. split; assumption.
Qed.

Lemma consistent_run events w : consistent w -> consistent (run events w).
Proof.
  revert w. induction events as [|e rest IH]; intros w H; [exact H|].
  rewrite run_cons. apply IH, consistent_step, H.
Qed.

Lemma clock_run events w :
  consistent w -> clock (run events w) = clock w + elapsed events.
Proof.
  revert w. induction events as [|e rest IH]; intros w H.
  - simpl. lia.
  - rewrite run_cons, IH, step_clock by auto using consistent_step.
    change (e :: rest) with ([e] ++ rest). rewrite elapsed_app. lia.
Qed.

(** ** Whole runs *)

Lemma status_settled_run events w :
  consistent w ->
  (forall reactions, studioStatus w <> Pending reactions) ->
  studioStatus (run events w) = studioStatus w.
Proof.
  revert w. induction events as [|e rest IH]; intros w Hw Hs;
    [reflexivity|].
  assert (Hstep : studioStatus (step w e) = studioStatus w).
  { rewrite (step_status _ e Hw).
    destruct (studioStatus w) as [reactions| |]; try reflexivity.
    destruct (Hs reactions). reflexivity. }
  rewrite run_cons, IH; auto using consistent_step.
  intros reactions. rewrite Hstep. apply Hs.
Qed.

Lemma status_run events w :
  consistent w ->
  studioStatus w = Pending [studioStatusReceived] ->
  studioStatus (run events w) = promise_after events.
Proof.
  revert w. induction events as [|e rest IH]; intros w Hw Hs;
    [exact Hs|].
  pose proof (step_status _ e Hw) as Hstep. rewrite Hs in Hstep.
  pose proof (consistent_step _ e Hw) as Hw'.
  rewrite run_cons.
  destruct e; cbv beta iota in Hstep;
    unfold promise_after; cbn [settlement_of];
    try (apply IH; assumption);
    rewrite status_settled_run, Hstep; auto;
    intros reactions; rewrite Hstep; discriminate.
Qed.

Lemma initialDelay_consistent w :
  consistent w -> initialDelay (vm w) = Nat.ltb (clock w) 1000.
Proof.
  intros [[(_ & Hc & ->) | (_ & Hc & ->)] _]; symmetry.
  - apply Nat.ltb_lt, Hc.
  - apply Nat.ltb_ge, Hc.
Qed.

Lemma formIsDisabled_consistent w :
  consistent w ->
  formIsDisabled (vm w) =
    match studioStatus w with
    | Fulfilled response => negb (carries_status response)
    | _ => true
    end.
Proof.
  intros [_ Hr]. unfold readiness_state in Hr.
  destruct (studioStatus w); try exact Hr.
  apply Hr.
Qed.

Section Runs.

Variable attrs : attributes.
Variable events : list event.

Lemma final_consistent : consistent (run events (instantiate attrs)).
Proof. apply consistent_run, consistent_instantiate. Qed.

Lemma final_clock : clock (run events (instantiate attrs)) = elapsed events.
Proof.
  rewrite clock_run by apply consistent_instantiate. reflexivity.
Qed.

Lemma final_status :
  studioStatus (run events (instantiate attrs)) = promise_after events.
Proof.
  apply status_run; [apply consistent_instantiate | reflexivity].
Qed.

Lemma final_initialDelay :
  initialDelay (vm (run events (instantiate attrs)))
  = Nat.ltb (elapsed events) 1000.
Proof.
  rewrite (initialDelay_consistent _ final_consistent), final_clock.
  reflexivity.
Qed.

Lemma final_formIsDisabled :
  formIsDisabled (vm (run events (instantiate attrs)))
  = negb (unlocks events).
Proof.
  rewrite (formIsDisabled_consistent _ final_consistent), final_status.
  unfold promise_after, unlocks.
  destruct (settlement_of events) as [[response|]|]; reflexivity.
Qed.

End Runs.

Lemma falls_step a b tail :
  falls (a :: b :: tail) = (if a && negb b then 1 else 0) + falls (b :: tail).
Proof. reflexivity. Qed.

Lemma rises_step a b tail :
  rises (a :: b :: tail) = (if negb a && b then 1 else 0) + rises (b :: tail).
Proof. reflexivity. Qed.

(** A flag that no step raises falls at most once along a run. *)
Section OneWay.

Variable flag : component -> bool.
Hypothesis no_rise : forall w e,
  consistent w -> flag (vm (step w e)) = true -> flag (vm w) = true.

Lemma no_rise_run events w :
  consistent w -> flag (vm (run events w)) = true -> flag (vm w) = true.
Proof.
  revert w. induction events as [|e rest IH]; intros w Hw H; [exact H|].
  apply (no_rise _ e Hw), IH; auto using consistent_step.
Qed.

Lemma observe_cons e rest w :
  observe flag (e :: rest) w = flag (vm w) :: observe flag rest (step w e).
Proof. reflexivity. Qed.

Lemma observe_head rest w :
  exists tail, observe flag rest w = flag (vm w) :: tail.
Proof. destruct rest; eexists; reflexivity. Qed.

Lemma falls_one_way events w :
  consistent w ->
  falls (observe flag events w) =
    if flag (vm w) && negb (flag (vm (run events w))) then 1 else 0.
Proof.
  revert w. induction events as [|e rest IH]; intros w Hw.
  - simpl. destruct (flag (vm w)); reflexivity.
  - pose proof (consistent_step _ e Hw) as Hw'.
    rewrite observe_cons, run_cons.
    destruct (observe_head rest (step w e)) as [tail Htail].
    specialize (IH _ Hw'). rewrite Htail in *. rewrite falls_step, IH.
    pose proof (no_rise _ e Hw) as H1.
    pose proof (no_rise_run rest _ Hw') as H2.
    destruct (flag (vm w)), (flag (vm (step w e))),
      (flag (vm (run rest (step w e)))); simpl; try reflexivity;
      try (specialize (H1 eq_refl); discriminate);
      specialize (H2 eq_refl); discriminate.
Qed.

Lemma rises_one_way events w :
  consistent w -> rises (observe flag events w) = 0.
Proof.
  revert w. induction events as [|e rest IH]; intros w Hw;
    [reflexivity|].
  pose proof (consistent_step _ e Hw) as Hw'.
  rewrite observe_cons.
  destruct (observe_head rest (step w e)) as [tail Htail].
  specialize (IH _ Hw'). rewrite Htail in *. rewrite rises_step, IH.
  pose proof (no_rise _ e Hw) as H1.
  destruct (flag (vm w)), (flag (vm (step w e))); simpl;
    try reflexivity.
  specialize (H1 eq_refl); discriminate.
Qed.

End OneWay.

(** ** How single steps move the two flags and the outbox *)

Lemma formIsDisabled_step w e :
  consistent w ->
  formIsDisabled (vm (step w e)) =
    match studioStatus w, e with
    | Pending _, studioStatusResolved response =>
        negb (carries_status response)
    | _, _ => formIsDisabled (vm w)
    end.
Proof.
  intros Hw.
  rewrite (formIsDisabled_consistent _ (consistent_step _ e Hw)).
  rewrite (step_status _ e Hw), (formIsDisabled_consistent _ Hw).
  destruct (studioStatus w), e; reflexivity.
Qed.

Lemma formIsDisabled_no_rise w e :
  consistent w ->
  formIsDisabled (vm (step w e)) = true -> formIsDisabled (vm w) = true.
Proof.
  intros Hw. rewrite (formIsDisabled_step _ e Hw).
  pose proof (formIsDisabled_consistent _ Hw) as H.
  destruct (studioStatus w), e; auto.
Qed.

Lemma initialDelay_no_rise w e :
  consistent w ->
  initialDelay (vm (step w e)) = true -> initialDelay (vm w) = true.
Proof.
  intros Hw.
  rewrite (initialDelay_consistent _ (consistent_step _ e Hw)).
  rewrite (initialDelay_consistent _ Hw), (step_clock _ e Hw).
  rewrite !Nat.ltb_lt. lia.
Qed.

Lemma step_outbox w e :
  consistent w ->
  outbox (step w e) =
    outbox w ++
    match e with
    | submit => snd (handleSubmit (vm_attrs w) (vm w))
    | cancel => snd (handleCancel (vm_attrs w) (vm w))
    | _ => []
    end.
Proof.
  intros [Hd Hr]. destruct e; try (simpl; apply call_outbox);
    rewrite app_nil_r; simpl.
  - rewrite (advance_spec _ _ Hd). destruct (_ && _); reflexivity.
  - rewrite (resolve_spec _ _ Hr).
    destruct (studioStatus w); try reflexivity.
    rewrite call_outbox.
    destruct (studioStatusReceived_outcome
                (vm_attrs (with_studioStatus (Fulfilled response) w))
                (vm (with_studioStatus (Fulfilled response) w)) response)
      as (-> & _).
    apply app_nil_r.
  - unfold reject. destruct (studioStatus w); reflexivity.
  - apply choose_frame.
Qed.

Lemma unlocks_prefix before after :
  unlocks (before ++ after) = false -> unlocks before = false.
Proof.
  unfold unlocks. induction before as [|e before IH]; [reflexivity|].
  destruct e; simpl; auto.
Qed.

(** As long as the form has not been unlocked nothing was submitted, and
    the status was asked for exactly once in any run. *)
Lemma outbox_run attrs events :
  length (filter is_request (outbox (run events (instantiate attrs)))) = 1
  /\ (unlocks events = false ->
      forall e, In e (outbox (run events (instantiate attrs))) ->
                is_submission e = false).
Proof.
  induction events as [|e before IH] using rev_ind.
  - split; [reflexivity|].
    intros _ e [<- | []]. reflexivity.
  - rewrite run_app. cbn [run fold_left].
    pose proof (final_consistent attrs before) as Hw.
    pose proof (final_formIsDisabled attrs before) as Hf.
    rewrite (step_outbox _ e Hw).
    set (w := run before (instantiate attrs)) in *.
    destruct IH as [IHr IHs].
    assert (Hextra :
      match e with
      | submit => snd (handleSubmit (vm_attrs w) (vm w))
      | cancel => snd (handleCancel (vm_attrs w) (vm w))
      | _ => []
      end =
      match e with
      | submit =>
          if formIsDisabled (vm w) then []
          else if JS.to_boolean (manageMode (vm_attrs w))
               then [emit "submit"
                       (Some {| submitted_source := source (vm w) |})]
               else [goForwardFromSelectImportSourceModal (source (vm w))]
      | cancel =>
          if JS.to_boolean (manageMode (vm_attrs w))
          then [emit "cancel" None]
          else [resetContentWizardState]
      | _ => []
      end).
    { destruct e; try reflexivity.
      - rewrite handleSubmit_spec. reflexivity.
      - rewrite handleCancel_spec. reflexivity. }
    rewrite Hextra. clear Hextra. split.
    + rewrite filter_app, length_app, IHr.
      destruct e; try reflexivity.
      * destruct (formIsDisabled (vm w)); [reflexivity|].
        destruct (JS.to_boolean _); reflexivity.
      * destruct (JS.to_boolean _); reflexivity.
    + intros Hu x Hx. apply in_app_or in Hx. destruct Hx as [Hx | Hx].
      * apply IHs; [|exact Hx]. exact (unlocks_prefix _ _ Hu).
      * rewrite (unlocks_prefix _ _ Hu) in Hf. simpl in Hf.
        rewrite Hf in Hx.
        destruct e; try contradiction.
        destruct (JS.to_boolean _); destruct Hx as [<- | []]; reflexivity.
Qed.

(** ** The component's contract *)

(** C6: right after creation, before the timer or the status callback has
    run, the component holds [source = KOLIBRI_STUDIO],
    [initialDelay = true], [formIsDisabled = true] and
    [kolibriStudioIsOffline = false]; both callbacks are still waiting. *)
Theorem instantiate_state attrs :
  vm (instantiate attrs) = mkComponent KOLIBRI_STUDIO true true false
  /\ data = mkComponent KOLIBRI_STUDIO true true false
  /\ timers (instantiate attrs) = [(1000, initialDelayElapsed)]
  /\ studioStatus (instantiate attrs) = Pending [studioStatusReceived].
Proof. repeat split. Qed.

(** C1: when the status check resolves with a response that carries a
    status, in any run of any instance: a status equal to "offline" sets
    [source] to [PEER_KOLIBRI_SERVER] and [kolibriStudioIsOffline] to true;
    any other status leaves [source] as it was and
    [kolibriStudioIsOffline] false; in both cases [formIsDisabled] becomes
    false.  The callback does the same on every component state, whatever
    [source] held before. *)
Theorem studioStatus_resolution attrs events response status :
  settlement_of events = None ->
  status_of response = Some status ->
  let before := run events (instantiate attrs) in
  let after := step before (studioStatusResolved response) in
  formIsDisabled (vm after) = false
  /\ (if JS.strict_eq_string status "offline"
      then source (vm after) = PEER_KOLIBRI_SERVER
           /\ kolibriStudioIsOffline (vm after) = true
      else source (vm after) = source (vm before)
           /\ kolibriStudioIsOffline (vm after) = false)
  /\ (forall attrs' this,
        studioStatusReceived response attrs' this =
          (Normal tt,
           if JS.strict_eq_string status "offline"
           then mkComponent PEER_KOLIBRI_SERVER (initialDelay this)
                            false true
           else mkComponent (source this) (initialDelay this)
                            false (kolibriStudioIsOffline this),
           [])).
Proof.
  intros Hpending Hstatus before after.
  pose proof (final_consistent attrs events) as Hw.
  pose proof (final_status attrs events) as Hs.
  unfold promise_after in Hs. rewrite Hpending in Hs.
  fold before in Hw, Hs.
  assert (Hvm : vm after =
    if JS.strict_eq_string status "offline"
    then mkComponent PEER_KOLIBRI_SERVER (initialDelay (vm before))
                     false true
    else set_formIsDisabled false (vm before)).
  { unfold after. cbn [step].
    rewrite (resolve_spec _ _ (proj2 Hw)), Hs, call_vm.
    rewrite (studioStatusReceived_spec _ _ _ _ Hstatus). reflexivity. }
  destruct Hw as [_ Hr]. unfold readiness_state in Hr. rewrite Hs in Hr.
  destruct Hr as (_ & _ & Hbefore).
  repeat split.
  - rewrite Hvm. destruct (JS.strict_eq_string status "offline");
      reflexivity.
  - rewrite Hvm. destruct (JS.strict_eq_string status "offline").
    + split; reflexivity.
    + split; [reflexivity | exact Hbefore].
  - intros attrs' this.
    rewrite (studioStatusReceived_spec _ _ _ _ Hstatus). reflexivity.
Qed.

(** C5, as amended: along every run of every instance [formIsDisabled]
    goes from true to false at most once, and exactly once when the status
    check resolves with a response that carries a status; it never goes
    from false to true; and a step that changes it is the resolution of
    the status check, never the timer or an operation of the user. *)
Theorem formIsDisabled_unlocked_by_resolution attrs events :
  let w0 := instantiate attrs in
  falls (observe formIsDisabled events w0) = (if unlocks events then 1 else 0)
  /\ rises (observe formIsDisabled events w0) = 0
  /\ (forall e,
        formIsDisabled (vm (step (run events w0) e))
          <> formIsDisabled (vm (run events w0)) ->
        exists response,
          e = studioStatusResolved response
          /\ settlement_of events = None
          /\ carries_status response = true).
Proof.
  intros w0. pose proof (consistent_instantiate attrs) as H0.
  repeat split.
  - rewrite (falls_one_way _ formIsDisabled_no_rise _ _ H0).
    unfold w0. rewrite final_formIsDisabled. simpl.
    destruct (unlocks events); reflexivity.
  - apply (rises_one_way _ formIsDisabled_no_rise _ _ H0).
  - intros e.
    pose proof (final_consistent attrs events) as Hw.
    pose proof (final_status attrs events) as Hs.
    unfold w0. rewrite (formIsDisabled_step _ e Hw).
    rewrite (formIsDisabled_consistent _ Hw), Hs.
    unfold promise_after.
    destruct (settlement_of events) as [[r|]|], e;
      try (intros H; exfalso; apply H; reflexivity).
    intros H. exists response. repeat split.
    destruct (carries_status response); [reflexivity|].
    exfalso; apply H; reflexivity.
Qed.

(** C7: in every reachable state the template disables the submit control
    exactly when [formIsDisabled] holds and shows the loading message
    exactly when [formIsDisabled && !initialDelay]; so the message stays
    hidden during the first 1000 ms, is shown from then on while the form
    is still locked, and is hidden once the check has unlocked the form. *)
Theorem render_flags attrs events :
  let this := vm (run events (instantiate attrs)) in
  submitDisabled (render this) = formIsDisabled this
  /\ showLoadingMessage (render this)
     = formIsDisabled this && negb (initialDelay this)
  /\ showLoadingMessage (render this)
     = negb (unlocks events) && Nat.leb 1000 (elapsed events).
Proof.
  intros this. repeat split. unfold this. simpl.
  rewrite final_formIsDisabled, final_initialDelay.
  rewrite Nat.ltb_antisym, negb_involutive. reflexivity.
Qed.

(** C8: along every run [initialDelay] is true strictly before the clock
    reaches 1000 and false from then on, so it goes from true to false
    once, at the 1000 mark, and never back, whatever happens to the status
    check; the timer callback assigns no other field, and the status
    callback leaves [initialDelay] alone. *)
Theorem initialDelay_ends_at_1000 attrs events :
  let w0 := instantiate attrs in
  initialDelay (vm (run events w0)) = Nat.ltb (elapsed events) 1000
  /\ falls (observe initialDelay events w0)
     = (if Nat.leb 1000 (elapsed events) then 1 else 0)
  /\ rises (observe initialDelay events w0) = 0
  /\ (forall attrs' this,
        initialDelayElapsed attrs' this =
          (Normal tt,
           mkComponent (source this) false (formIsDisabled this)
                       (kolibriStudioIsOffline this),
           []))
  /\ (forall response attrs' this,
        initialDelay (snd (fst (studioStatusReceived response attrs' this)))
        = initialDelay this).
Proof.
  intros w0. pose proof (consistent_instantiate attrs) as H0.
  repeat split.
  - apply final_initialDelay.
  - rewrite (falls_one_way _ initialDelay_no_rise _ _ H0).
    unfold w0. rewrite final_initialDelay. simpl.
    rewrite Nat.ltb_antisym, negb_involutive. reflexivity.
  - apply (rises_one_way _ initialDelay_no_rise _ _ H0).
  - intros response attrs' this.
    apply (studioStatusReceived_outcome attrs' this response).
Qed.

(** C9: in a run where the status call is rejected, or has not been
    answered, [formIsDisabled] is still true at the end, however long the
    run; the rejection itself leaves the component untouched, [submit]
    changes nothing at all, nothing has been submitted so far, and the
    status has been asked for once only. *)
Theorem studioStatus_failure attrs events :
  settlement_of events = None \/ settlement_of events = Some rejected ->
  let w := run events (instantiate attrs) in
  formIsDisabled (vm w) = true
  /\ step w submit = w
  /\ vm (step w studioStatusRejected) = vm w
  /\ (forall e, In e (outbox w) -> is_submission e = false)
  /\ length (filter is_request (outbox w)) = 1.
Proof.
  intros Hsettle w.
  assert (Hu : unlocks events = false).
  { unfold unlocks. destruct Hsettle as [-> | ->]; reflexivity. }
  assert (Hf : formIsDisabled (vm w) = true).
  { unfold w. rewrite final_formIsDisabled, Hu. reflexivity. }
  repeat split.
  - exact Hf.
  - cbn [step]. apply call_silent.
    rewrite handleSubmit_spec, Hf. reflexivity.
  - cbn [step]. unfold reject. destruct (studioStatus w); reflexivity.
  - apply (proj2 (outbox_run attrs events) Hu).
  - apply (proj1 (outbox_run attrs events)).
Qed.

(** C10: neither handler assigns a field of the component: after
    [handleSubmit] and after [handleCancel], in every state and for every
    [manageMode], [source], [initialDelay], [formIsDisabled] and
    [kolibriStudioIsOffline] are what they were; the event loop's view of
    the component is unchanged as well. *)
Theorem handlers_keep_state attrs this :
  snd (fst (handleSubmit attrs this)) = this
  /\ snd (fst (handleCancel attrs this)) = this
  /\ (forall w, vm (step w submit) = vm w /\ vm (step w cancel) = vm w).
Proof.
  repeat split.
  - rewrite handleSubmit_spec. reflexivity.
  - rewrite handleCancel_spec. reflexivity.
  - rewrite step_submit. reflexivity.
  - rewrite step_cancel. reflexivity.
Qed.

(** ** The contract at concrete inputs *)

Lemma studioStatus_resolution_witness :
  settlement_of [elapse 300; submit; pick LOCAL_DRIVE] = None
  /\ status_of offline_response = Some (JS.Str "offline")
  /\ let after :=
       vm (step (run [elapse 300; submit; pick LOCAL_DRIVE]
                     (instantiate wizard_attrs))
                (studioStatusResolved offline_response)) in
     formIsDisabled after = false
     /\ source after = PEER_KOLIBRI_SERVER
     /\ kolibriStudioIsOffline after = true.
Proof.
  split; [reflexivity | split; [reflexivity|]].
  pose proof (studioStatus_resolution wizard_attrs
                [elapse 300; submit; pick LOCAL_DRIVE]
                offline_response (JS.Str "offline") eq_refl eq_refl) as H.
  cbv zeta in H. destruct H as (Hf & (Hs & Ho) & _).
  exact (conj Hf (conj Hs Ho)).
Defined.

Lemma handleSubmit_enabled_witness :
  formIsDisabled (mkComponent LOCAL_DRIVE false false false) = false
  /\ handleSubmit manage_attrs (mkComponent LOCAL_DRIVE false false false)
     = (Normal tt, mkComponent LOCAL_DRIVE false false false,
        [emit "submit" (Some {| submitted_source := LOCAL_DRIVE |})]).
Proof.
  split; [reflexivity|].
  exact (handleSubmit_enabled manage_attrs
           (mkComponent LOCAL_DRIVE false false false) eq_refl).
Defined.

Lemma handleSubmit_disabled_witness :
  formIsDisabled data = true
  /\ handleSubmit wizard_attrs data = (Normal tt, data, []).
Proof.
  split; [reflexivity|].
  exact (handleSubmit_disabled wizard_attrs data eq_refl).
Defined.

Lemma studioStatus_failure_witness :
  settlement_of [elapse 1500; studioStatusRejected; submit; cancel]
    = Some rejected
  /\ formIsDisabled
       (vm (run [elapse 1500; studioStatusRejected; submit; cancel]
                (instantiate manage_attrs))) = true.
Proof.
  split; [reflexivity|].
  exact (proj1 (studioStatus_failure manage_attrs
                  [elapse 1500; studioStatusRejected; submit; cancel]
                  (or_intror eq_refl))).
Defined.

Lemma formIsDisabled_unlocked_by_resolution_witness :
  formIsDisabled
    (vm (step (run [elapse 200] (instantiate manage_attrs))
              (studioStatusResolved online_response)))
  <> formIsDisabled (vm (run [elapse 200] (instantiate manage_attrs)))
  /\ exists response,
       studioStatusResolved online_response = studioStatusResolved response
       /\ settlement_of [elapse 200] = None
       /\ carries_status response = true.
Proof.
  assert (Hchange :
    formIsDisabled
      (vm (step (run [elapse 200] (instantiate manage_attrs))
                (studioStatusResolved online_response)))
    <> formIsDisabled (vm (run [elapse 200] (instantiate manage_attrs)))).
  { vm_compute. discriminate. }
  split; [exact Hchange|].
  exact (proj2 (proj2 (formIsDisabled_unlocked_by_resolution
                         manage_attrs [elapse 200]))
               (studioStatusResolved online_response) Hchange).
Defined.

(** C5 as stated fails: when the status call is rejected [formIsDisabled]
    does not go from true to false once, it stays true. *)
Lemma formIsDisabled_stays_true_on_rejection :
  falls (observe formIsDisabled
           [elapse 1000; studioStatusRejected; submit; elapse 3000]
           (instantiate manage_attrs)) <> 1.
Proof. vm_compute. discriminate. Qed.

(** The two end-to-end scenarios of the specification. *)
Example scenario_online :
  outbox (run [submit; studioStatusResolved online_response; submit]
              (instantiate manage_attrs))
  = [getKolibriStudioStatus;
     emit "submit" (Some {| submitted_source := KOLIBRI_STUDIO |})].
Proof. reflexivity. Qed.

Example scenario_offline :
  outbox (run [studioStatusResolved offline_response; submit]
              (instantiate wizard_attrs))
  = [getKolibriStudioStatus;
     goForwardFromSelectImportSourceModal PEER_KOLIBRI_SERVER].
Proof. reflexivity. Qed.

(** A response without a body raises a TypeError in the callback and the
    form stays locked. *)
Example response_without_data :
  vm (run [studioStatusResolved (JS.Object [])] (instantiate manage_attrs))
  = data.
Proof. reflexivity. Qed.

(** ** The selection *)

Lemma enabled_spec choice this :
  enabled choice this =
    negb (formIsDisabled this)
    && negb (kolibriStudioIsOffline this
             && ContentSources_eqb choice KOLIBRI_STUDIO).
Proof.
  unfold enabled. simpl.
  destruct choice, (formIsDisabled this), (kolibriStudioIsOffline this);
    reflexivity.
Qed.

(** The component after one step. *)
Lemma step_vm w e :
  consistent w ->
  vm (step w e) =
    match e with
    | elapse dt =>
        if Nat.ltb (clock w) 1000 && Nat.leb 1000 (clock w + dt)
        then set_initialDelay false (vm w)
        else vm w
    | studioStatusResolved response =>
        match studioStatus w, status_of response with
        | Pending _, Some status =>
            if JS.strict_eq_string status "offline"
            then mkComponent PEER_KOLIBRI_SERVER (initialDelay (vm w))
                             false true
            else set_formIsDisabled false (vm w)
        | _, _ => vm w
        end
    | pick choice =>
        if enabled choice (vm w) then set_source choice (vm w) else vm w
    | _ => vm w
    end.
Proof.
  intros [Hd Hr]. destruct e; cbn [step].
  - rewrite (advance_spec _ _ Hd). destruct (_ && _); reflexivity.
  - rewrite (resolve_spec _ _ Hr).
    destruct (studioStatus w); try reflexivity.
    rewrite call_vm. simpl.
    destruct (status_of response) as [status|] eqn:E.
    + rewrite (studioStatusReceived_spec _ _ _ _ E). reflexivity.
    + rewrite (studioStatusReceived_throws _ _ _ E). reflexivity.
  - unfold reject. destruct (studioStatus w); reflexivity.
  - unfold choose. fold (enabled choice (vm w)).
    destruct (enabled choice (vm w)); reflexivity.
  - rewrite call_vm, handleSubmit_spec. reflexivity.
  - rewrite call_vm, handleCancel_spec. reflexivity.
Qed.

Lemma step_attrs w e : consistent w -> vm_attrs (step w e) = vm_attrs w.
Proof.
  intros [Hd Hr]. destruct e; cbn [step].
  - rewrite (advance_spec _ _ Hd). destruct (_ && _); reflexivity.
  - rewrite (resolve_spec _ _ Hr).
    destruct (studioStatus w); try reflexivity.
    destruct (call_frame (studioStatusReceived response)
                (with_studioStatus (Fulfilled response) w)) as [-> _].
    reflexivity.
  - unfold reject. destruct (studioStatus w); reflexivity.
  - apply choose_frame.
  - apply call_frame.
  - apply call_frame.
Qed.

Lemma selection_instantiate attrs : selection_state (instantiate attrs).
Proof. repeat split. Qed.

Lemma step_status_same w e :
  consistent w ->
  match e with
  | studioStatusResolved _ | studioStatusRejected => True
  | _ => studioStatus (step w e) = studioStatus w
  end.
Proof.
  intros Hw. pose proof (step_status _ e Hw) as H.
  destruct e; try exact I; rewrite H; destruct (studioStatus w);
    reflexivity.
Qed.

Lemma selection_step w e :
  consistent w -> selection_state w -> selection_state (step w e).
Proof.
  intros Hw (Hk & Ho & Hl). unfold selection_state.
  pose proof (step_status_same _ e Hw) as Hq.
  pose proof (step_status _ e Hw) as Hs.
  rewrite (step_vm _ e Hw).
  destruct e; try rewrite Hq; try (repeat split; assumption).
  - (* elapse *)
    destruct (Nat.ltb (clock w) 1000 && Nat.leb 1000 (clock w + dt));
      simpl; repeat split; assumption.
  - (* the check resolves *)
    rewrite Hs. clear Hs Hq.
    destruct (studioStatus w) as [reactions| |] eqn:E;
      try (repeat split; assumption).
    unfold offline_by. simpl in Ho.
    destruct (status_of response) as [status|].
    + destruct (JS.strict_eq_string status "offline"); simpl.
      * repeat split. discriminate.
      * repeat split; [exact Hk | exact Ho | discriminate].
    + repeat split; assumption.
  - (* the check fails *)
    rewrite Hs. repeat split; try assumption.
    rewrite Ho. destruct (studioStatus w); reflexivity.
  - (* a button is picked *)
    rewrite enabled_spec.
    destruct (formIsDisabled (vm w)) eqn:Ef;
      destruct (kolibriStudioIsOffline (vm w)) eqn:Ek;
      destruct (ContentSources_eqb choice KOLIBRI_STUDIO) eqn:Ec;
      simpl; rewrite ?Ek, ?Ef, ?Ec; simpl;
      repeat split; try assumption; try discriminate.
Qed.

Lemma selection_run events w :
  consistent w -> selection_state w -> selection_state (run events w).
Proof.
  revert w. induction events as [|e rest IH]; intros w Hw Hs; [exact Hs|].
  rewrite run_cons.
  apply IH; [apply consistent_step, Hw | apply selection_step; assumption].
Qed.

Lemma final_selection attrs events :
  selection_state (run events (instantiate attrs)).
Proof.
  apply selection_run;
    [apply consistent_instantiate | apply selection_instantiate].
Qed.

Lemma final_attrs attrs events :
  vm_attrs (run events (instantiate attrs)) = attrs.
Proof.
  induction events as [|e before IH] using rev_ind; [reflexivity|].
  rewrite run_app. cbn [run fold_left].
  rewrite step_attrs by apply final_consistent. exact IH.
Qed.

Lemma settlement_of_app before after :
  settlement_of (before ++ after) =
    match settlement_of before with
    | Some s => Some s
    | None => settlement_of after
    end.
Proof.
  induction before as [|e before IH]; [reflexivity|].
  destruct e; simpl; auto.
Qed.

Lemma final_offline attrs events :
  kolibriStudioIsOffline (vm (run events (instantiate attrs)))
  = reports_offline events.
Proof.
  destruct (final_selection attrs events) as (_ & -> & _).
  rewrite final_status. unfold promise_after, reports_offline.
  destruct (settlement_of events) as [[response|]|]; reflexivity.
Qed.

Lemma reports_offline_settled before after s :
  settlement_of before = Some s ->
  reports_offline (before ++ after) = reports_offline before.
Proof.
  intros H. unfold reports_offline. rewrite settlement_of_app, H.
  reflexivity.
Qed.

Lemma submitted_is_submission e src :
  submitted e = Some src -> is_submission e = true.
Proof.
  destruct e as [name [payload|] | | |]; simpl; try discriminate;
    [|reflexivity].
  destruct (String.eqb name "submit"); [reflexivity | discriminate].
Qed.

(** A submission of Kolibri Studio is only ever made in a run where the
    status check did not report it offline. *)
Lemma studio_submitted_online attrs events e :
  In e (outbox (run events (instantiate attrs))) ->
  submitted e = Some KOLIBRI_STUDIO ->
  reports_offline events = false.
Proof.
  revert e. induction events as [|x before IH] using rev_ind;
    intros e Hin Hsub; [reflexivity|].
  pose proof (final_consistent attrs before) as Hw.
  rewrite run_app in Hin. cbn [run fold_left] in Hin.
  rewrite (step_outbox _ x Hw) in Hin.
  apply in_app_or in Hin.
  destruct (settlement_of before) as [s|] eqn:Es.
  - rewrite (reports_offline_settled _ _ _ Es).
    destruct Hin as [Hin | Hin]; [exact (IH _ Hin Hsub)|].
    rewrite <- (final_offline attrs before).
    destruct (final_selection attrs before) as (Hk & _ & _).
    destruct x; try contradiction.
    + rewrite handleSubmit_spec in Hin. simpl in Hin.
      destruct (formIsDisabled _); [contradiction|].
      destruct (JS.to_boolean _); destruct Hin as [<- | []];
        simpl in Hsub; injection Hsub as Hsrc; rewrite Hsrc in Hk;
        simpl in Hk; rewrite andb_true_r in Hk; exact Hk.
    + rewrite handleCancel_spec in Hin. simpl in Hin.
      destruct (JS.to_boolean _); destruct Hin as [<- | []];
        discriminate.
  - exfalso.
    assert (Hu : unlocks before = false)
      by (unfold unlocks; rewrite Es; reflexivity).
    destruct Hin as [Hin | Hin].
    + pose proof (proj2 (outbox_run attrs before) Hu _ Hin) as Hn.
      rewrite (submitted_is_submission _ _ Hsub) in Hn. discriminate.
    + pose proof (final_formIsDisabled attrs before) as Hf.
      rewrite Hu in Hf. simpl in Hf.
      destruct x; try contradiction.
      * rewrite handleSubmit_spec, Hf in Hin. contradiction.
      * rewrite handleCancel_spec in Hin. simpl in Hin.
        destruct (JS.to_boolean _); destruct Hin as [<- | []];
          discriminate.
Qed.

(** X1: as long as the status check has not unlocked the form (it is
    pending, was rejected, or resolved with a response without a readable
    [data.status]) no pick takes effect: the component is still in its
    initial state, except that [initialDelay] follows the clock. *)
Theorem locked_component_is_initial attrs events :
  unlocks events = false ->
  vm (run events (instantiate attrs))
  = mkComponent KOLIBRI_STUDIO (Nat.ltb (elapsed events) 1000) true false.
Proof.
  intros Hu.
  pose proof (final_formIsDisabled attrs events) as Hf.
  pose proof (final_initialDelay attrs events) as Hi.
  destruct (final_selection attrs events) as (Hk & _ & Hl).
  rewrite Hu in Hf. simpl in Hf. specialize (Hl Hf).
  rewrite Hl in Hk. simpl in Hk. rewrite andb_true_r in Hk.
  destruct (vm (run events (instantiate attrs))). simpl in *.
  subst. reflexivity.
Qed.

(** X2: in every run [kolibriStudioIsOffline] is true exactly when the
    status check has resolved with status "offline"; no pick, timer,
    submit, cancel or later settlement sets or clears it. *)
Theorem kolibriStudioIsOffline_follows_status attrs events :
  kolibriStudioIsOffline (vm (run events (instantiate attrs)))
  = reports_offline events.
Proof. apply final_offline. Qed.

(** X3: in every reachable state the selected source is not Kolibri Studio
    while [kolibriStudioIsOffline] holds, and the radio button of the
    selected source is enabled exactly when the form is unlocked. *)
Theorem selected_button_enabled attrs events :
  let this := vm (run events (instantiate attrs)) in
  kolibriStudioIsOffline this
    && ContentSources_eqb (source this) KOLIBRI_STUDIO = false
  /\ enabled (source this) this = negb (formIsDisabled this).
Proof.
  intros this.
  destruct (final_selection attrs events) as (Hk & _ & _).
  fold this in Hk. split; [exact Hk|].
  rewrite enabled_spec, Hk. apply andb_true_r.
Qed.

(** X4: in a run where the status check reported Kolibri Studio offline,
    no submission ever carries Kolibri Studio as its source, neither as
    the payload of "submit" nor as the argument of the wizard action. *)
Theorem offline_never_submits_studio attrs events e :
  reports_offline events = true ->
  In e (outbox (run events (instantiate attrs))) ->
  submitted e <> Some KOLIBRI_STUDIO.
Proof.
  intros Hoff Hin Hsub.
  rewrite (studio_submitted_online attrs events e Hin Hsub) in Hoff.
  discriminate.
Qed.

(** X5: the mode decides the collaborator for the whole life of the
    instance: with [manageMode] truthy every effect besides the status
    request is an event for the embedding component and the wizard store
    is never called; otherwise every effect is a call of the wizard store
    and no event is emitted. *)
Theorem effects_addressed_by_mode attrs events :
  forallb (addressed_by_mode (JS.to_boolean (manageMode attrs)))
          (outbox (run events (instantiate attrs))) = true.
Proof.
  induction events as [|x before IH] using rev_ind; [reflexivity|].
  pose proof (final_consistent attrs before) as Hw.
  rewrite run_app. cbn [run fold_left].
  rewrite (step_outbox _ x Hw), forallb_app, IH, final_attrs. simpl.
  destruct x; try reflexivity.
  - rewrite handleSubmit_spec. simpl.
    destruct (formIsDisabled _); [reflexivity|].
    destruct (JS.to_boolean (manageMode attrs)); reflexivity.
  - rewrite handleCancel_spec. simpl.
    destruct (JS.to_boolean (manageMode attrs)); reflexivity.
Qed.

(** X6: picking a button that is enabled selects its value, and a submit
    right after it hands exactly that value to the collaborator the mode
    selects. *)
Theorem pick_then_submit w choice :
  enabled choice (vm w) = true ->
  source (vm (step w (pick choice))) = choice
  /\ outbox (run [pick choice; submit] w)
     = outbox w ++
       [if JS.to_boolean (manageMode (vm_attrs w))
        then emit "submit" (Some {| submitted_source := choice |})
        else goForwardFromSelectImportSourceModal choice].
Proof.
  intros He.
  assert (Hstep : step w (pick choice)
                  = with_vm (set_source choice (vm w)) w).
  { cbn [step]. unfold choose. fold (enabled choice (vm w)).
    rewrite He. reflexivity. }
  rewrite enabled_spec in He. apply andb_prop in He. destruct He as [Hf _].
  apply negb_true_iff in Hf.
  split.
  - rewrite Hstep. reflexivity.
  - cbn [run fold_left]. rewrite Hstep. cbn [step].
    rewrite call_outbox, handleSubmit_spec. simpl. rewrite Hf.
    destruct (JS.to_boolean (manageMode (vm_attrs w))); reflexivity.
Qed.

Lemma pick_then_submit_witness :
  enabled LOCAL_DRIVE
    (vm (run [studioStatusResolved offline_response]
             (instantiate manage_attrs))) = true
  /\ outbox (run [pick LOCAL_DRIVE; submit]
                 (run [studioStatusResolved offline_response]
                      (instantiate manage_attrs)))
     = [getKolibriStudioStatus;
        emit "submit" (Some {| submitted_source := LOCAL_DRIVE |})].
Proof.
  split; [reflexivity|].
  exact (proj2 (pick_then_submit
                  (run [studioStatusResolved offline_response]
                       (instantiate manage_attrs))
                  LOCAL_DRIVE eq_refl)).
Defined.

Lemma locked_component_is_initial_witness :
  unlocks [pick LOCAL_DRIVE; studioStatusResolved (JS.Object []);
           elapse 1200; studioStatusResolved online_response;
           pick PEER_KOLIBRI_SERVER] = false
  /\ vm (run [pick LOCAL_DRIVE; studioStatusResolved (JS.Object []);
              elapse 1200; studioStatusResolved online_response;
              pick PEER_KOLIBRI_SERVER]
             (instantiate wizard_attrs))
     = mkComponent KOLIBRI_STUDIO false true false.
Proof.
  split; [reflexivity|].
  exact (locked_component_is_initial wizard_attrs
           [pick LOCAL_DRIVE; studioStatusResolved (JS.Object []);
            elapse 1200; studioStatusResolved online_response;
            pick PEER_KOLIBRI_SERVER] eq_refl).
Defined.

Lemma offline_never_submits_studio_witness :
  reports_offline [studioStatusResolved offline_response;
                   pick KOLIBRI_STUDIO; submit] = true
  /\ In (goForwardFromSelectImportSourceModal PEER_KOLIBRI_SERVER)
        (outbox (run [studioStatusResolved offline_response;
                      pick KOLIBRI_STUDIO; submit]
                     (instantiate wizard_attrs)))
  /\ submitted (goForwardFromSelectImportSourceModal PEER_KOLIBRI_SERVER)
     <> Some KOLIBRI_STUDIO.
Proof.
  assert (Hin :
    In (goForwardFromSelectImportSourceModal PEER_KOLIBRI_SERVER)
       (outbox (run [studioStatusResolved offline_response;
                     pick KOLIBRI_STUDIO; submit]
                    (instantiate wizard_attrs))))
    by (right; left; reflexivity).
  split; [reflexivity | split; [exact Hin|]].
  exact (offline_never_submits_studio wizard_attrs
           [studioStatusResolved offline_response;
            pick KOLIBRI_STUDIO; submit]
           (goForwardFromSelectImportSourceModal PEER_KOLIBRI_SERVER)
           eq_refl Hin).
Defined.

(** ** The timer and the rest of the component *)

Lemma world_ext w1 w2 :
  vm w1 = vm w2 -> vm_attrs w1 = vm_attrs w2 -> clock w1 = clock w2 ->
  timers w1 = timers w2 -> studioStatus w1 = studioStatus w2 ->
  outbox w1 = outbox w2 -> w1 = w2.
Proof.
  destruct w1, w2. simpl. intros. subst. reflexivity.
Qed.

Lemma step_timers w e :
  consistent w ->
  timers (step w e) =
    match e with
    | elapse dt =>
        if Nat.ltb (clock w) 1000 && Nat.leb 1000 (clock w + dt)
        then [] else timers w
    | _ => timers w
    end.
Proof.
  intros [Hd Hr]. destruct e; cbn [step].
  - rewrite (advance_spec _ _ Hd). destruct (_ && _); reflexivity.
  - rewrite (resolve_spec _ _ Hr).
    destruct (studioStatus w); try reflexivity.
    rewrite call_timers. reflexivity.
  - unfold reject. destruct (studioStatus w); reflexivity.
  - apply choose_frame.
  - apply call_timers.
  - apply call_timers.
Qed.

(** What a step appends to the outbox reads [source], [formIsDisabled] and
    the mode, never [initialDelay]. *)
Lemma step_outbox_spec w e :
  consistent w ->
  outbox (step w e) =
    outbox w ++
    match e with
    | submit =>
        if formIsDisabled (vm w) then []
        else if JS.to_boolean (manageMode (vm_attrs w))
             then [emit "submit"
                     (Some {| submitted_source := source (vm w) |})]
             else [goForwardFromSelectImportSourceModal (source (vm w))]
    | cancel =>
        if JS.to_boolean (manageMode (vm_attrs w))
        then [emit "cancel" None]
        else [resetContentWizardState]
    | _ => []
    end.
Proof.
  intros Hw. rewrite (step_outbox _ e Hw). f_equal.
  destruct e; try reflexivity.
  - rewrite handleSubmit_spec. reflexivity.
  - rewrite handleCancel_spec. reflexivity.
Qed.

Lemma fires_twice c dt dt' :
  (if Nat.ltb c 1000 && Nat.leb 1000 (c + dt) then true
   else Nat.ltb (c + dt) 1000 && Nat.leb 1000 (c + dt + dt'))
  = Nat.ltb c 1000 && Nat.leb 1000 (c + dt + dt').
Proof.
  destruct (Nat.ltb_spec c 1000), (Nat.leb_spec 1000 (c + dt)),
    (Nat.ltb_spec (c + dt) 1000), (Nat.leb_spec 1000 (c + dt + dt'));
    simpl; try reflexivity; lia.
Qed.

(** Two stretches of time in a row are one stretch. *)
Lemma elapse_elapse w dt dt' :
  consistent w ->
  step (step w (elapse dt)) (elapse dt') = step w (elapse (dt + dt')).
Proof.
  intros Hw. pose proof (consistent_step _ (elapse dt) Hw) as Hw1.
  pose proof (fires_twice (clock w) dt dt') as Hfire.
  apply world_ext.
  - rewrite (step_vm _ _ Hw1), (step_vm _ _ Hw), (step_clock _ _ Hw).
    rewrite (step_vm _ _ Hw). simpl elapsed. rewrite Nat.add_0_r.
    rewrite Nat.add_assoc, <- Hfire. clear Hfire.
    destruct (Nat.ltb (clock w) 1000 && Nat.leb 1000 (clock w + dt));
      [|reflexivity].
    destruct (_ && _); reflexivity.
  - rewrite !step_attrs by assumption. reflexivity.
  - rewrite !step_clock by assumption. simpl elapsed. lia.
  - rewrite (step_timers _ _ Hw1), (step_timers _ _ Hw),
      (step_clock _ _ Hw), (step_timers _ _ Hw).
    simpl elapsed. rewrite Nat.add_0_r.
    rewrite Nat.add_assoc, <- Hfire. clear Hfire.
    destruct (Nat.ltb (clock w) 1000 && Nat.leb 1000 (clock w + dt));
      [|reflexivity].
    destruct (_ && _); reflexivity.
  - pose proof (step_status_same _ (elapse dt') Hw1) as H1.
    pose proof (step_status_same _ (elapse dt) Hw) as H2.
    pose proof (step_status_same _ (elapse (dt + dt')) Hw) as H3.
    cbv beta iota in H1, H2, H3. rewrite H1, H2, H3. reflexivity.
  - rewrite !step_outbox_spec by assumption. rewrite !app_nil_r.
    reflexivity.
Qed.

Lemma elapse_commutes_step w dt e :
  consistent w ->
  step (step w (elapse dt)) e = step (step w e) (elapse dt).
Proof.
  intros Hw.
  destruct (match e with elapse _ => true | _ => false end) eqn:Hkind.
  { destruct e as [dt'| | | | |]; try discriminate.
    rewrite !elapse_elapse by assumption.
    rewrite (Nat.add_comm dt dt'). reflexivity. }
  pose proof (consistent_step _ (elapse dt) Hw) as Hw1.
  pose proof (consistent_step _ e Hw) as Hw2.
  assert (Hclock : clock (step w e) = clock w).
  { rewrite (step_clock _ _ Hw).
    destruct e; try discriminate; simpl; apply Nat.add_0_r. }
  assert (Hstatus : studioStatus (step w (elapse dt)) = studioStatus w)
    by exact (step_status_same _ (elapse dt) Hw).
  assert (Hattrs : vm_attrs (step w (elapse dt)) = vm_attrs w)
    by (apply step_attrs, Hw).
  assert (Hvm : vm (step w (elapse dt)) =
                if Nat.ltb (clock w) 1000 && Nat.leb 1000 (clock w + dt)
                then set_initialDelay false (vm w) else vm w)
    by exact (step_vm _ (elapse dt) Hw).
  apply world_ext.
  - rewrite (step_vm _ e Hw1), (step_vm _ (elapse dt) Hw2).
    rewrite Hclock, Hstatus, Hvm, (step_vm _ e Hw).
    destruct e; try discriminate;
      destruct (Nat.ltb (clock w) 1000 && Nat.leb 1000 (clock w + dt));
      try reflexivity.
    + destruct (studioStatus w); try reflexivity.
      destruct (status_of response) as [status|]; [|reflexivity].
      destruct (JS.strict_eq_string status "offline"); reflexivity.
    + rewrite !enabled_spec. simpl.
      destruct (negb (formIsDisabled (vm w)) && _); reflexivity.
  - rewrite !step_attrs by assumption. reflexivity.
  - rewrite !step_clock by assumption. simpl elapsed. lia.
  - rewrite (step_timers _ e Hw1), (step_timers _ (elapse dt) Hw2).
    rewrite Hclock, (step_timers _ (elapse dt) Hw), (step_timers _ e Hw).
    destruct e; try discriminate; reflexivity.
  - rewrite (step_status _ e Hw1), Hstatus.
    pose proof (step_status_same _ (elapse dt) Hw2) as H.
    cbv beta iota in H. rewrite H, (step_status _ e Hw). reflexivity.
  - rewrite (step_outbox_spec _ e Hw1),
      (step_outbox_spec _ (elapse dt) Hw2), app_nil_r.
    rewrite (step_outbox_spec _ (elapse dt) Hw), app_nil_r.
    rewrite (step_outbox_spec _ e Hw), Hattrs, Hvm.
    destruct e; try discriminate;
      destruct (Nat.ltb (clock w) 1000 && Nat.leb 1000 (clock w + dt));
      reflexivity.
Qed.

(** X7: the delay timer is independent of everything else: at any point
    of any run, letting time pass before an event or after it leads to the
    same world (component, clock, timers, promise and outbox), whether the
    event is the answer of the status check, its failure, a pick, a submit,
    a cancel or more time. *)
Theorem elapse_commutes attrs events dt e :
  run (events ++ [elapse dt; e]) (instantiate attrs)
  = run (events ++ [e; elapse dt]) (instantiate attrs).
Proof.
  rewrite !run_app. cbn [run fold_left].
  apply elapse_commutes_step, final_consistent.
Qed.

(** ** Counting what leaves the component *)

Section Counting.

Variable p : effect -> bool.
Variables ps pc : bool.
Hypothesis p_emit_submit :
  forall src, p (emit "submit" (Some {| submitted_source := src |})) = ps.
Hypothesis p_goForward :
  forall src, p (goForwardFromSelectImportSourceModal src) = ps.
Hypothesis p_emit_cancel : p (emit "cancel" None) = pc.
Hypothesis p_reset : p resetContentWizardState = pc.

Lemma count_step w e :
  consistent w ->
  length (filter p (outbox (step w e))) =
    length (filter p (outbox w))
    + match e with
      | submit => if formIsDisabled (vm w) then 0 else Nat.b2n ps
      | cancel => Nat.b2n pc
      | _ => 0
      end.
Proof.
  intros Hw. rewrite (step_outbox_spec _ e Hw), filter_app, length_app.
  f_equal. destruct e; try reflexivity.
  - destruct (formIsDisabled (vm w)); [reflexivity|].
    destruct (JS.to_boolean _); simpl;
      rewrite ?p_emit_submit, ?p_goForward; destruct ps; reflexivity.
  - destruct (JS.to_boolean _); simpl;
      rewrite ?p_emit_cancel, ?p_reset; destruct pc; reflexivity.
Qed.

Lemma count_settled events w :
  consistent w ->
  (forall reactions, studioStatus w <> Pending reactions) ->
  length (filter p (outbox (run events w))) =
    length (filter p (outbox w))
    + (if formIsDisabled (vm w) then 0
       else Nat.b2n ps * length (filter is_submit events))
    + Nat.b2n pc * length (filter is_cancel events).
Proof.
  revert w. induction events as [|e rest IH]; intros w Hw Hs.
  - simpl. destruct (formIsDisabled (vm w)); lia.
  - pose proof (consistent_step _ e Hw) as Hw'.
    assert (Hst : studioStatus (step w e) = studioStatus w).
    { rewrite (step_status _ e Hw).
      destruct (studioStatus w) as [reactions| |]; try reflexivity.
      destruct (Hs reactions). reflexivity. }
    assert (Hf : formIsDisabled (vm (step w e)) = formIsDisabled (vm w)).
    { rewrite (formIsDisabled_step _ e Hw).
      destruct (studioStatus w) as [reactions| |]; try reflexivity.
      destruct (Hs reactions). reflexivity. }
    rewrite run_cons, IH, Hf, (count_step _ e Hw); auto.
    + destruct e; simpl; destruct (formIsDisabled (vm w)); lia.
    + intros reactions. rewrite Hst. apply Hs.
Qed.

Lemma count_pending events w :
  consistent w ->
  studioStatus w = Pending [studioStatusReceived] ->
  length (filter p (outbox (run events w))) =
    length (filter p (outbox w))
    + Nat.b2n ps * submits_after_unlock events
    + Nat.b2n pc * length (filter is_cancel events).
Proof.
  revert w. induction events as [|e rest IH]; intros w Hw Hs.
  - simpl. lia.
  - pose proof (consistent_step _ e Hw) as Hw'.
    pose proof (step_status _ e Hw) as Hst. rewrite Hs in Hst.
    pose proof (formIsDisabled_consistent _ Hw) as Hf. rewrite Hs in Hf.
    pose proof (formIsDisabled_step _ e Hw) as Hf'. rewrite Hs in Hf'.
    pose proof (count_step _ e Hw) as Hc.
    rewrite run_cons.
    destruct e; cbv beta iota in Hst, Hf', Hc;
      try (rewrite IH, Hc by assumption; simpl; rewrite ?Hf; lia);
      rewrite count_settled, Hc, Hf' by
        (try assumption; intros reactions; rewrite Hst; discriminate).
    + simpl. destruct (carries_status response); simpl; lia.
    + rewrite Hf. simpl. lia.
Qed.

End Counting.

(** X8: the outbox of a run holds the status request, one submission
    effect for every [submit] that came after the status check unlocked the
    form (none for a [submit] before, none if it never unlocked), one
    cancellation effect for every [cancel], and nothing else. *)
Theorem outbox_accounting attrs events :
  let out := outbox (run events (instantiate attrs)) in
  length (filter is_submission out) = submits_after_unlock events
  /\ length (filter is_cancellation out) = length (filter is_cancel events)
  /\ length out
     = 1 + submits_after_unlock events + length (filter is_cancel events).
Proof.
  pose proof (consistent_instantiate attrs) as H0.
  assert (Hs : studioStatus (instantiate attrs)
               = Pending [studioStatusReceived]) by reflexivity.
  repeat split.
  - rewrite (count_pending is_submission true false) by auto.
    simpl. lia.
  - rewrite (count_pending is_cancellation false true) by auto.
    simpl. lia.
  - rewrite <- (filter_true (outbox (run events (instantiate attrs)))).
    rewrite (count_pending (fun _ => true) true true) by auto.
    simpl. lia.
Qed.

(** X9: the three radio buttons in every reachable state: "Kolibri Studio"
    is disabled until the form is unlocked and for good once the check
    reported it offline, and has the autofocus unless it was reported
    offline; "Local network or internet" and "Attached drive" are disabled
    exactly until the form is unlocked and never have the autofocus. *)
Theorem radio_buttons attrs events :
  buttons (render (vm (run events (instantiate attrs)))) =
    [ {| value := KOLIBRI_STUDIO;
         disabled := reports_offline events || negb (unlocks events);
         autofocus := negb (reports_offline events) |};
      {| value := PEER_KOLIBRI_SERVER;
         disabled := negb (unlocks events);
         autofocus := false |};
      {| value := LOCAL_DRIVE;
         disabled := negb (unlocks events);
         autofocus := false |} ].
Proof.
  unfold render. cbn [buttons].
  rewrite final_formIsDisabled, final_offline. reflexivity.
Qed.
